(** * calculate_B_xenon.py: the xenon scaling law and its feasibility table

    The script holds two functions.  [calculate_B_xenon] evaluates the
    scaling law

      B_Xe = B_He * sqrt(m_Xe/m_He) * sqrt(z_He/z_Xe) * sqrt(V_Xe/V_He)

    and [generate_feasibility_table] prints it for 100 V .. 1000 V and the
    charge states 1, 2 and 3.

    The development embeds the script twice.

    - [Binary64] is the program as Python runs it: numbers are Python ints
      or IEEE-754 binary64 floats (Rocq's primitive floats are the same
      format with the same correctly rounded operations), [/] and
      [math.sqrt] raise the exceptions Python raises, [print] appends a
      line to the standard output.  Everything in it evaluates.

    - [Ideal] is the same function text with the float type read as the
      real numbers and the exceptions kept.  The algebraic laws of the
      script (scaling, monotonicity, the one-coefficient form) are laws of
      this reading; rounding is outside it.  It is the mathematical
      reference: what is said of the program is said of [Binary64].

    [Spec] holds the formulas the specification gives for the calculator
    and [Layout] the formatting contract of the table, written as a reader
    of the output; the properties compare the program with them. *)

From Stdlib Require Import ZArith List String Ascii Bool Lia.
From Stdlib Require Import DecimalString DecimalPos.
From Stdlib Require Import Floats.PrimFloat Floats.SpecFloat Floats.FloatOps.
From Stdlib Require Import Floats.FloatAxioms.
From Stdlib Require Import QArith Qabs Qpower.
From Stdlib Require Import Reals Lra Qreals.
Import ListNotations.

(** ** Python exceptions and results *)

Inductive exception : Set :=
| ZeroDivisionError
| ValueError
| OverflowError.

Inductive result (A : Type) : Type :=
| Ok (a : A)
| Raise (e : exception).

Arguments Ok {A} a.
Arguments Raise {A} e.

Definition bind {A B : Type} (r : result A) (k : A -> result B) : result B :=
  match r with
  | Ok a => k a
  | Raise e => Raise e
  end.

Definition fmap {A B : Type} (f : A -> B) (r : result A) : result B :=
  bind r (fun a => Ok (f a)).

(** The value a call returned, when it returned one. *)
Definition returned {A : Type} (r : result A) : option A :=
  match r with
  | Ok a => Some a
  | Raise _ => None
  end.

Declare Scope py_scope.
Delimit Scope py_scope with py.
Notation "x <- c ;; k" := (bind c (fun x => k))
  (at level 61, c at next level, right associativity) : py_scope.

(** ** The program on binary64 floats *)

Module Binary64.

Local Open Scope Z_scope.
Local Open Scope py_scope.

(** A Python number as the script meets it: the table passes ints, a caller
    of the calculator may pass floats. *)
Inductive number : Set :=
| Int (n : Z)
| Float (f : float).

(** [float(n)] for an int: rounded to nearest, ties to even;
    [OverflowError] when the rounded value is not finite. *)
Definition float_of_int (n : Z) : result float :=
  let f := SF2Prim (binary_normalize prec emax n 0 false) in
  if is_infinity f then Raise OverflowError else Ok f.

Definition to_float (x : number) : result float :=
  match x with
  | Int n => float_of_int n
  | Float f => Ok f
  end.

(** [a / b] on two ints: the correctly rounded quotient.  The quotient is
    taken with at least 56 significant bits and one sticky bit for the
    remainder, then rounded once. *)
Definition int_true_div (a b : Z) : result float :=
  if b =? 0 then Raise ZeroDivisionError
  else
    let s := xorb (a <? 0) (b <? 0) in
    let a' := Z.abs a in
    let b' := Z.abs b in
    if a' =? 0 then Ok (if s then neg_zero else zero)
    else
      let k := Z.max 0 (Z.log2 b' - Z.log2 a' + 56) in
      let n := a' * 2 ^ k in
      let q := n / b' in
      let sticky := if n mod b' =? 0 then 0 else 1 in
      let f := SF2Prim (binary_round prec emax s (Z.to_pos (2 * q + sticky)) (- (k + 1))) in
      if is_infinity f then Raise OverflowError else Ok f.

(** [a / b] on two floats. *)
Definition float_div (a b : float) : result float :=
  if PrimFloat.eqb b zero then Raise ZeroDivisionError
  else Ok (PrimFloat.div a b).

(** Python's true division [x / y]. *)
Definition true_div (x y : number) : result float :=
  match x, y with
  | Int a, Int b => int_true_div a b
  | _, _ =>
      a <- to_float x ;;
      b <- to_float y ;;
      float_div a b
  end.

(** [math.sqrt] on a float: nan goes through, a negative argument is a
    domain error. *)
Definition math_sqrt (x : float) : result float :=
  if is_nan x then Ok x
  else if PrimFloat.ltb x zero then Raise ValueError
  else Ok (PrimFloat.sqrt x).

Definition B_HE : float := 0x1.c28f5c28f5c29p-4%float.      (* 0.110 *)
Definition V_HE : float := 100%float.                        (* 100.0 *)
Definition Z_HE : Z := 1.
Definition M_XE : float := 0x1.05cf67303adb5p+7%float.      (* 130.90508414 *)
Definition M_HE : float := 0x1.002aa6d6b2c38p+2%float.      (* 4.002603254 *)

Definition calculate_B_xenon (voltage_xe charge_state_ze : number) : result float :=
  MASS_RATIO_XE_HE <- float_div M_XE M_HE ;;
  term_mass <- math_sqrt MASS_RATIO_XE_HE ;;
  q_charge <- true_div (Int Z_HE) charge_state_ze ;;
  term_charge <- math_sqrt q_charge ;;
  q_voltage <- true_div voltage_xe (Float V_HE) ;;
  term_voltage <- math_sqrt q_voltage ;;
  Ok (B_HE * term_mass * term_charge * term_voltage)%float.

(** *** Formatting: the format specifiers [<15] and [<15.3f] *)

Local Open Scope string_scope.

(** [str(n)] for an int. *)
Definition str_int (n : Z) : string := NilZero.string_of_int (Z.to_int n).

Fixpoint replicate (n : nat) (c : ascii) : string :=
  match n with
  | O => EmptyString
  | S n' => String c (replicate n' c)
  end.

(** [format(s, '<w')]: left-aligned, padded with spaces up to [w]
    characters; a longer text is left as it is.  The texts the script pads
    are ASCII, one byte a character. *)
Definition ljust (width : nat) (s : string) : string :=
  s ++ replicate (width - String.length s)%nat " ".

(** [t / d] rounded to the nearest integer, ties to even ([0 < d]). *)
Definition round_half_even (t d : Z) : Z :=
  let q := (t / d)%Z in
  let r := (t mod d)%Z in
  (if 2 * r <? d then q
   else if d <? 2 * r then q + 1
   else if Z.even q then q else q + 1)%Z.

(** The digits of [n], zero-padded on the left to [width] digits. *)
Definition zero_padded (width : nat) (n : Z) : string :=
  let s := str_int n in
  replicate (width - String.length s)%nat "0" ++ s.

(** [format(x, '.pf')]: the exact binary value of [x], rounded half-even to
    [p] decimals, written in fixed-point notation. *)
Definition format_fixed (p : nat) (x : float) : string :=
  let scale := (10 ^ Z.of_nat p)%Z in
  let digits (n : Z) :=
    match p with
    | O => str_int n
    | S _ => str_int (n / scale)%Z ++ "." ++ zero_padded p (n mod scale)%Z
    end in
  let sign (s : bool) := if s then "-" else "" in
  match Prim2SF x with
  | S754_nan => "nan"
  | S754_infinity s => sign s ++ "inf"
  | S754_zero s => sign s ++ digits 0
  | S754_finite s m e =>
      let n := (if 0 <=? e then Z.pos m * 2 ^ e * scale
                else round_half_even (Z.pos m * scale) (2 ^ (- e)))%Z in
      sign s ++ digits n
  end.

(** *** Standard output *)

(** The lines printed so far, oldest first; a computation returns or raises
    and leaves the lines it printed.  A line is its UTF-8 bytes, and the
    stream takes every line: its encoding is not part of the model. *)
Definition stdout : Type := list string.
Definition io (A : Type) : Type := stdout -> result A * stdout.

Definition print (line : string) : io unit :=
  fun out => (Ok tt, (out ++ [line])%list).

Definition call {A : Type} (r : result A) : io A :=
  fun out => (r, out).

Definition io_bind {A B : Type} (c : io A) (k : A -> io B) : io B :=
  fun out =>
    match c out with
    | (Ok a, out') => k a out'
    | (Raise e, out') => (Raise e, out')
    end.

Declare Scope io_scope.
Delimit Scope io_scope with io.
Notation "x <- c ;; k" := (io_bind c (fun x => k))
  (at level 61, c at next level, right associativity) : io_scope.
Notation "c ;; k" := (io_bind c (fun _ => k))
  (at level 61, right associativity) : io_scope.

(** [for x in xs: body(x)]; the first exception ends the loop. *)
Fixpoint for_each {A : Type} (xs : list A) (body : A -> io unit) : io unit :=
  match xs with
  | [] => call (Ok tt)
  | x :: xs' => (body x ;; for_each xs' body)%io
  end.

(** [range(start, stop, step)] as the list it iterates over. *)
Definition range (start stop step : Z) : result (list Z) :=
  let count (n : Z) :=
    map (fun i => start + step * Z.of_nat i)%Z (seq 0 (Z.to_nat n)) in
  (if step =? 0 then Raise ValueError
   else if 0 <? step then Ok (count ((stop - start + step - 1) / step))
   else Ok (count ((start - stop - step - 1) / (- step))))%Z.

(** *** The table *)

Definition generate_feasibility_table : io unit :=
  (print "-------------------------------------------------------------------------" ;;
   print "PHASE 0 DATA: Required Magnetic Flux Density (B) in Tesla" ;;
   print "Target Parameter: L/r ≈ 3.81 (from He benchmark )" ;;
   print "-------------------------------------------------------------------------" ;;
   print (ljust 15 "Voltage (V)" ++ " | " ++ ljust 15 "B-Field (z=1)" ++ " | "
          ++ ljust 15 "B-Field (z=2)" ++ " | " ++ ljust 15 "B-Field (z=3)") ;;
   print "-------------------------------------------------------------------------" ;;
   voltages_to_test <- call (range 100 1001 100) ;;
   for_each voltages_to_test (fun v =>
     b_z1 <- call (calculate_B_xenon (Int v) (Int 1)) ;;
     b_z2 <- call (calculate_B_xenon (Int v) (Int 2)) ;;
     b_z3 <- call (calculate_B_xenon (Int v) (Int 3)) ;;
     print (ljust 15 (str_int v) ++ " | " ++ ljust 15 (format_fixed 3 b_z1) ++ " | "
            ++ ljust 15 (format_fixed 3 b_z2) ++ " | " ++ ljust 15 (format_fixed 3 b_z3))) ;;
   print "-------------------------------------------------------------------------")%io.

(** The script's entry point: the table on an empty standard output. *)
Definition main : result unit * stdout := generate_feasibility_table [].

End Binary64.

(** ** The calculator over the real numbers *)

Module Ideal.

Local Open Scope R_scope.
Local Open Scope py_scope.

(** [a / b]: a zero divisor raises. *)
Definition true_div (a b : R) : result R :=
  if Req_dec_T b 0 then Raise ZeroDivisionError else Ok (a / b).

(** [math.sqrt]: a negative argument is a domain error. *)
Definition math_sqrt (x : R) : result R :=
  if Rlt_dec x 0 then Raise ValueError else Ok (sqrt x).

Definition B_HE : R := 0.110.
Definition V_HE : R := 100.0.
Definition Z_HE : R := 1.
Definition M_XE : R := 130.90508414.
Definition M_HE : R := 4.002603254.

Definition calculate_B_xenon (voltage_xe charge_state_ze : R) : result R :=
  MASS_RATIO_XE_HE <- true_div M_XE M_HE ;;
  term_mass <- math_sqrt MASS_RATIO_XE_HE ;;
  q_charge <- true_div Z_HE charge_state_ze ;;
  term_charge <- math_sqrt q_charge ;;
  q_voltage <- true_div voltage_xe V_HE ;;
  term_voltage <- math_sqrt q_voltage ;;
  Ok (B_HE * term_mass * term_charge * term_voltage).

End Ideal.

(** ** The formulas of the specification *)

Module Spec.

Local Open Scope R_scope.

Definition B_ref : R := 0.110.
Definition V_ref : R := 100.0.
Definition z_ref : R := 1.
Definition mass_ratio : R := 130.90508414 / 4.002603254.

(** The real square root, undefined on negative arguments. *)
Definition real_sqrt (x : R) : option R :=
  if Rle_dec 0 x then Some (sqrt x) else None.

(** result = B_ref * sqrt(mass_ratio) * sqrt(z_ref / charge_state)
             * sqrt(voltage / V_ref), with the total square root of the
    library. *)
Definition scaling_law (voltage charge_state : R) : R :=
  B_ref * sqrt mass_ratio * sqrt (z_ref / charge_state) * sqrt (voltage / V_ref).

(** The same formula with the square root undefined where it is. *)
Definition scaling_law_partial (voltage charge_state : R) : option R :=
  match real_sqrt mass_ratio, real_sqrt (z_ref / charge_state),
        real_sqrt (voltage / V_ref) with
  | Some sm, Some sc, Some sv => Some (B_ref * sm * sc * sv)
  | _, _, _ => None
  end.

(** The one-coefficient form of the script's header,
    B_Xe = 0.0629 * sqrt(V_Xe / z_Xe), with its coefficient written out. *)
Definition C : R := Ideal.B_HE * sqrt (Ideal.M_XE / Ideal.M_HE) / sqrt Ideal.V_HE.

Definition simplified_predictive_equation (voltage charge_state : R) : R :=
  C * sqrt (voltage / charge_state).

(** "Within floating-point tolerance 1e-9", as a test would compare two
    floats. *)
Definition tolerance : float := 0x1.12e0be826d695p-30%float.      (* 1e-9 *)

Definition within_tolerance (x y : float) : bool :=
  (abs (x - y) <=? tolerance)%float.

(** [charge_state == 0] for a Python number: the int 0 and both float
    zeros. *)
Definition is_zero (x : Binary64.number) : bool :=
  match x with
  | Binary64.Int n => (n =? 0)%Z
  | Binary64.Float f => (f =? 0)%float
  end.



End Spec.

(** ** The formatting contract of the table

    The contract is written as a reader of the output checks it: cut the
    line into its columns, strip the padding, parse the digits, compare
    with the number the cell stands for. *)

Module Layout.

Local Open Scope string_scope.

Definition rule : string :=
  "-------------------------------------------------------------------------".

(** The lines before the data rows. *)
Definition banner : list string :=
  [ rule;
    "PHASE 0 DATA: Required Magnetic Flux Density (B) in Tesla";
    "Target Parameter: L/r ≈ 3.81 (from He benchmark )";
    rule;
    "Voltage (V)     | B-Field (z=1)   | B-Field (z=2)   | B-Field (z=3)  ";
    rule ].

(** The line after them. *)
Definition footer : list string := [ rule ].

(** The voltages of the fixed range, 100 to 1000 in steps of 100. *)
Definition voltages : list Z :=
  [100; 200; 300; 400; 500; 600; 700; 800; 900; 1000]%Z.

Definition charge_states : list Z := [1; 2; 3]%Z.

(** A text without its trailing spaces. *)
Fixpoint rstrip (s : string) : string :=
  match s with
  | EmptyString => EmptyString
  | String c s' =>
      match rstrip s' with
      | EmptyString => if Ascii.eqb c " " then EmptyString else String c EmptyString
      | r => String c r
      end
  end.

Definition digit_value (c : ascii) : option Z :=
  let n := nat_of_ascii c in
  if ((48 <=? n) && (n <=? 57))%nat then Some (Z.of_nat (n - 48)) else None.

Fixpoint digits_value (acc : Z) (s : string) : option Z :=
  match s with
  | EmptyString => Some acc
  | String c s' =>
      match digit_value c with
      | Some d => digits_value (10 * acc + d)%Z s'
      | None => None
      end
  end.

(** The integer a non-empty run of decimal digits denotes. *)
Definition decimal_value (s : string) : option Z :=
  match s with
  | EmptyString => None
  | _ => digits_value 0 s
  end.

(** The text held left-aligned by a field of the given width: the field has
    that width and the text is what remains without the padding. *)
Definition left_aligned (width : nat) (field : string) : option string :=
  if (String.length field =? width)%nat then Some (rstrip field) else None.

(** A fixed-point text with exactly three digits after the decimal point,
    read as a number of thousandths. *)
Definition thousandths (text : string) : option Z :=
  match index 0 "." text with
  | Some i =>
      let whole := substring 0 i text in
      let fraction := substring (S i) (String.length text - S i) text in
      if (String.length fraction =? 3)%nat then
        match decimal_value whole, decimal_value fraction with
        | Some a, Some b => Some (1000 * a + b)%Z
        | _, _ => None
        end
      else None
  | None => None
  end.

(** The rational number a finite float is. *)
Definition float_value (x : float) : option Q :=
  match Prim2SF x with
  | S754_zero _ => Some 0%Q
  | S754_finite s m e =>
      Some ((if s then -1 else 1) * inject_Z (Z.pos m) * 2 ^ e)%Q
  | _ => None
  end.

(** [text] is [x] written with three decimals: no three-decimal number is
    nearer to [x]. *)
Definition is_fixed_3 (x : float) (text : string) : bool :=
  match thousandths text, float_value x with
  | Some n, Some q => Qle_bool (Qabs ((n # 1000) - q)%Q) (1 # 2000)%Q
  | _, _ => false
  end.

(** Column [i] of a line of 15-wide fields separated by " | ", and the
    separator after it. *)
Definition column (i : nat) (line : string) : string :=
  substring (18 * i) 15 line.

Definition separator (i : nat) (line : string) : string :=
  substring (18 * i + 15) 3 line.

Definition holds_int (v : Z) (field : string) : bool :=
  match left_aligned 15 field with
  | Some text =>
      match decimal_value text with
      | Some n => (n =? v)%Z
      | None => false
      end
  | None => false
  end.

Definition holds_fixed_3 (x : float) (field : string) : bool :=
  match left_aligned 15 field with
  | Some text => is_fixed_3 x text
  | None => false
  end.

(** A data row: four fields of width 15, the voltage as an integer and the
    three flux densities with three decimals, " | " between them. *)
Definition row_format (v : Z) (b1 b2 b3 : float) (line : string) : bool :=
  (String.length line =? 69)%nat
  && holds_int v (column 0 line)
  && String.eqb (separator 0 line) " | "
  && holds_fixed_3 b1 (column 1 line)
  && String.eqb (separator 1 line) " | "
  && holds_fixed_3 b2 (column 2 line)
  && String.eqb (separator 2 line) " | "
  && holds_fixed_3 b3 (column 3 line).

(** The row of voltage [v]: the calculator returns for the charge states
    1, 2 and 3 and the line shows the voltage and what it returned. *)
Definition data_row (v : Z) (line : string) : Prop :=
  exists b1 b2 b3 : float,
    Binary64.calculate_B_xenon (Binary64.Int v) (Binary64.Int 1) = Ok b1
    /\ Binary64.calculate_B_xenon (Binary64.Int v) (Binary64.Int 2) = Ok b2
    /\ Binary64.calculate_B_xenon (Binary64.Int v) (Binary64.Int 3) = Ok b3
    /\ row_format v b1 b2 b3 line = true.

(** The call with voltage [v] and charge state [z] is inside the
    calculator's domain (a positive voltage, a charge state of at least 1)
    and returns a finite value. *)
Definition call_in_domain (v z : Z) : Prop :=
  (0 < v)%Z /\ (1 <= z)%Z
  /\ exists b : float,
       Binary64.calculate_B_xenon (Binary64.Int v) (Binary64.Int z) = Ok b
       /\ is_finite b = true.


End Layout.

(** * Properties *)

(** ** Facts about the real-number calculator *)

Section IdealFacts.

Local Open Scope R_scope.
Import Ideal.

Lemma true_div_ok (a b : R) : b <> 0 -> true_div a b = Ok (a / b).
Proof.
  intros Hb. unfold true_div. destruct (Req_dec_T b 0); [contradiction | reflexivity].
Qed.


Lemma math_sqrt_ok (x : R) : 0 <= x -> math_sqrt x = Ok (sqrt x).
Proof.
  intros Hx. unfold math_sqrt. destruct (Rlt_dec x 0); [lra | reflexivity].
Qed.

Lemma math_sqrt_negative (x : R) : x < 0 -> math_sqrt x = Raise ValueError.
Proof.
  intros Hx. unfold math_sqrt. destruct (Rlt_dec x 0); [reflexivity | lra].
Qed.

Lemma M_HE_pos : 0 < M_HE.
Proof. unfold M_HE. lra. Qed.

Lemma mass_ratio_pos : 0 < M_XE / M_HE.
Proof. unfold M_XE, M_HE. lra. Qed.

Lemma inv_charge_pos (z : R) : 0 < z -> 0 < Z_HE / z.
Proof.
  intros Hz. unfold Z_HE. apply Rdiv_lt_0_compat; lra.
Qed.


Lemma voltage_ratio_nonneg (V : R) : 0 <= V -> 0 <= V / V_HE.
Proof.
  intros HV. unfold V_HE. lra.
Qed.

Lemma voltage_ratio_neg (V : R) : V < 0 -> V / V_HE < 0.
Proof.
  intros HV. unfold V_HE. lra.
Qed.

(** The mass term never raises: the calculator is its continuation after
    [term_mass]. *)
Lemma calculate_B_xenon_after_mass (V z : R) :
  calculate_B_xenon V z =
  bind (true_div Z_HE z) (fun q_charge =>
  bind (math_sqrt q_charge) (fun term_charge =>
  bind (true_div V V_HE) (fun q_voltage =>
  bind (math_sqrt q_voltage) (fun term_voltage =>
  Ok (B_HE * sqrt (M_XE / M_HE) * term_charge * term_voltage))))).
Proof.
  unfold calculate_B_xenon.
  rewrite (true_div_ok M_XE M_HE) by (apply Rgt_not_eq, M_HE_pos).
  cbn [bind].
  rewrite math_sqrt_ok by (apply Rlt_le, mass_ratio_pos).
  reflexivity.
Qed.

Lemma V_HE_neq_0 : V_HE <> 0.
Proof. unfold V_HE. lra. Qed.

(** In the domain the calculator returns the product of its four factors. *)
Lemma calculate_B_xenon_in_domain (V z : R) :
  0 <= V -> 0 < z ->
  calculate_B_xenon V z =
  Ok (B_HE * sqrt (M_XE / M_HE) * sqrt (Z_HE / z) * sqrt (V / V_HE)).
Proof.
  intros HV Hz. rewrite calculate_B_xenon_after_mass.
  rewrite true_div_ok by lra. cbn [bind].
  rewrite math_sqrt_ok by (apply Rlt_le, inv_charge_pos, Hz). cbn [bind].
  rewrite (true_div_ok V V_HE) by apply V_HE_neq_0. cbn [bind].
  rewrite math_sqrt_ok by (apply voltage_ratio_nonneg, HV).
  reflexivity.
Qed.



Lemma calculate_B_xenon_negative_voltage (V z : R) :
  V < 0 -> 0 < z -> calculate_B_xenon V z = Raise ValueError.
Proof.
  intros HV Hz. rewrite calculate_B_xenon_after_mass.
  rewrite true_div_ok by lra. cbn [bind].
  rewrite math_sqrt_ok by (apply Rlt_le, inv_charge_pos, Hz). cbn [bind].
  rewrite (true_div_ok V V_HE) by apply V_HE_neq_0. cbn [bind].
  rewrite math_sqrt_negative by (apply voltage_ratio_neg, HV).
  reflexivity.
Qed.

End IdealFacts.

(** ** The scaling law *)

Section ScalingLaw.

Local Open Scope R_scope.



(** A square root lies between two numbers whose squares enclose its
    argument. *)
Lemma sqrt_enclosed (a b x : R) :
  0 <= a -> 0 <= b -> a * a < x -> x < b * b -> a < sqrt x < b.
Proof.
  intros Ha Hb Hax Hxb.
  assert (Hx : 0 <= x) by nra.
  pose proof (sqrt_sqrt x Hx) as Hs.
  pose proof (sqrt_pos x) as Hp.
  split; nra.
Qed.

Lemma sqrt_mass_ratio_bounds :
  5.7188273438 < sqrt (Ideal.M_XE / Ideal.M_HE) < 5.7188273439.
Proof.
  apply sqrt_enclosed; unfold Ideal.M_XE, Ideal.M_HE; lra.
Qed.

(** Over the reals: for every voltage V and every charge state z > 0 the
    calculator is the four-factor formula: it returns exactly where the
    formula's square roots are defined, and for V >= 0 it returns the
    formula's value. *)
Lemma calculate_B_xenon_is_scaling_law (V z : R) :
  0 < z ->
  returned (Ideal.calculate_B_xenon V z) = Spec.scaling_law_partial V z
  /\ (0 <= V -> Ideal.calculate_B_xenon V z = Ok (Spec.scaling_law V z)).
Proof.
  intros Hz.
  assert (Hm : 0 <= Spec.mass_ratio) by (apply Rlt_le, mass_ratio_pos).
  assert (Hc : 0 <= Spec.z_ref / z) by (apply Rlt_le, inv_charge_pos, Hz).
  split.
  - unfold Spec.scaling_law_partial, Spec.real_sqrt.
    destruct (Rle_dec 0 Spec.mass_ratio) as [_ | Hn]; [| contradiction].
    destruct (Rle_dec 0 (Spec.z_ref / z)) as [_ | Hn]; [| contradiction].
    destruct (Rle_dec 0 (V / Spec.V_ref)) as [Hv | Hv].
    + rewrite calculate_B_xenon_in_domain; [reflexivity | | exact Hz].
      unfold Spec.V_ref in Hv. lra.
    + rewrite calculate_B_xenon_negative_voltage; [reflexivity | | exact Hz].
      unfold Spec.V_ref in Hv. lra.
  - intros HV. now apply calculate_B_xenon_in_domain.
Qed.





Lemma sqrt_V_HE : sqrt Ideal.V_HE = 10.
Proof.
  unfold Ideal.V_HE. replace 100.0 with (10 * 10) by lra. apply sqrt_square. lra.
Qed.

(** C10: for every voltage V >= 0 and charge state z > 0 the four-factor
    formula the calculator implements equals the one-coefficient form
    C * sqrt(V / z) with C = B_HE * sqrt(MASS_RATIO_XE_HE) / sqrt(V_HE), and
    C is 0.062907 to six decimals. *)
Theorem simplified_equation_is_equivalent (V z : R) :
  0 <= V -> 0 < z ->
  Ideal.calculate_B_xenon V z = Ok (Spec.simplified_predictive_equation V z)
  /\ Rabs (Spec.C - 0.062907) < 0.0000005.
Proof.
  intros HV Hz. split.
  - rewrite calculate_B_xenon_in_domain by assumption.
    f_equal. unfold Spec.simplified_predictive_equation, Spec.C.
    assert (Hc : 0 <= Ideal.Z_HE / z) by (apply Rlt_le, inv_charge_pos, Hz).
    assert (Hv : 0 <= V / Ideal.V_HE) by (apply voltage_ratio_nonneg, HV).
    assert (Hs : sqrt (Ideal.Z_HE / z) * sqrt (V / Ideal.V_HE)
                 = sqrt (V / z) / sqrt Ideal.V_HE).
    { rewrite <- sqrt_mult by assumption.
      rewrite <- sqrt_div_alt by (unfold Ideal.V_HE; lra).
      f_equal. unfold Ideal.Z_HE, Ideal.V_HE. field. lra. }
    rewrite Rmult_assoc, Hs. rewrite sqrt_V_HE. lra.
  - unfold Spec.C. rewrite sqrt_V_HE.
    pose proof sqrt_mass_ratio_bounds as [Hlo Hhi].
    unfold Ideal.B_HE. apply Rabs_def1; lra.
Qed.

Lemma simplified_equation_is_equivalent_witness :
  0 <= 500 /\ 0 < 2
  /\ Ideal.calculate_B_xenon 500 2 = Ok (Spec.simplified_predictive_equation 500 2)
  /\ Rabs (Spec.C - 0.062907) < 0.0000005.
Proof.
  split; [lra | split; [lra | apply (simplified_equation_is_equivalent 500 2); lra]].
Defined.

End ScalingLaw.


(** ** The same laws on the floats of the table

    The laws above are laws of the real-number reading.  On the grid of the
    table the binary64 program obeys them to the last bit. *)

Section OnTheGrid.

Import Binary64.

Ltac by_evaluation :=
  repeat (apply Forall_cons; [vm_compute; reflexivity |]); apply Forall_nil.

Lemma binary64_zero_voltage :
  Forall (fun z => calculate_B_xenon (Int 0) (Int z) = Ok 0%float
                   /\ calculate_B_xenon (Float 0) (Int z) = Ok 0%float)
         Layout.charge_states.
Proof.
  unfold Layout.charge_states.
  repeat (apply Forall_cons; [split; vm_compute; reflexivity |]); apply Forall_nil.
Qed.

Lemma binary64_quadruple_voltage :
  Forall (fun z =>
            calculate_B_xenon (Int 400) (Int z)
            = fmap (PrimFloat.mul 2) (calculate_B_xenon (Int 100) (Int z))
            /\ calculate_B_xenon (Int 800) (Int z)
               = fmap (PrimFloat.mul 2) (calculate_B_xenon (Int 200) (Int z)))
         Layout.charge_states.
Proof.
  unfold Layout.charge_states.
  repeat (apply Forall_cons; [split; vm_compute; reflexivity |]); apply Forall_nil.
Qed.

Lemma binary64_quadruple_charge :
  Forall (fun v =>
            calculate_B_xenon (Int v) (Int 4)
            = fmap (PrimFloat.mul 0x1p-1) (calculate_B_xenon (Int v) (Int 1)))
         Layout.voltages.
Proof. unfold Layout.voltages. by_evaluation. Qed.

(** [b] is returned at [(v, z)], a strictly larger value at the next
    voltage and a strictly smaller one at the next charge state. *)
Lemma binary64_strictly_ordered_on_the_grid :
  Forall (fun v =>
            Forall (fun z =>
                      match calculate_B_xenon (Int v) (Int z),
                            calculate_B_xenon (Int (v + 100)) (Int z),
                            calculate_B_xenon (Int v) (Int (z + 1)) with
                      | Ok b, Ok b_up, Ok b_right =>
                          ((0 <? b) && (b <? b_up) && (b_right <? b))%float = true
                      | _, _, _ => False
                      end)
                   Layout.charge_states)
         Layout.voltages.
Proof.
  unfold Layout.voltages, Layout.charge_states.
  repeat (apply Forall_cons; [by_evaluation |]); apply Forall_nil.
Qed.

End OnTheGrid.

(** ** The benchmark point *)

(** What the script computes at 100 V and charge state 1. *)
Lemma calculate_B_xenon_100_1 :
  Binary64.calculate_B_xenon (Binary64.Int 100) (Binary64.Int 1)
  = Ok 0x1.4215985ae72adp-1%float.
Proof. vm_compute. reflexivity. Qed.

(** C2, as the specification states it, fails: the value returned at
    (100, 1) is not within 1e-9 of 0.110. *)
Lemma benchmark_point_is_not_B_HE :
  ~ (exists b : float,
       Binary64.calculate_B_xenon (Binary64.Int 100) (Binary64.Int 1) = Ok b
       /\ Spec.within_tolerance b Binary64.B_HE = true).
Proof.
  intros [b [Hb Hclose]].
  rewrite calculate_B_xenon_100_1 in Hb. injection Hb as <-.
  vm_compute in Hclose. discriminate Hclose.
Qed.

(** C2, amended: calculate_B_xenon(100, 1) is the helium benchmark 0.110
    multiplied by the square root of the mass ratio,
    0.110 * sqrt(130.90508414 / 4.002603254), which is 0.629071008 within
    1e-9, on floats and over the reals. *)
Theorem benchmark_point_value :
  (exists b : float,
     Binary64.calculate_B_xenon (Binary64.Int 100) (Binary64.Int 1) = Ok b
     /\ Spec.within_tolerance b 0x1.4215985c7189dp-1%float = true)   (* 0.629071008 *)
  /\ Ideal.calculate_B_xenon 100 1
     = Ok (0.110 * sqrt (130.90508414 / 4.002603254))%R
  /\ (Rabs (0.110 * sqrt (130.90508414 / 4.002603254) - 0.629071008)
      < 0.000000001)%R.
Proof.
  split; [| split].
  - eexists. split; [apply calculate_B_xenon_100_1 | vm_compute; reflexivity].
  - rewrite calculate_B_xenon_in_domain by lra. f_equal.
    replace (Ideal.Z_HE / 1)%R with 1%R by (unfold Ideal.Z_HE; lra).
    replace (100 / Ideal.V_HE)%R with 1%R by (unfold Ideal.V_HE; lra).
    rewrite sqrt_1. unfold Ideal.B_HE, Ideal.M_XE, Ideal.M_HE. ring.
  - pose proof sqrt_mass_ratio_bounds as [Hlo Hhi].
    unfold Ideal.M_XE, Ideal.M_HE in Hlo, Hhi.
    apply Rabs_def1; lra.
Qed.

(** ** The invalid charge state *)

(** C7: a call with charge state 0 (the int 0 or a float zero) raises
    ZeroDivisionError, whatever the voltage; it returns no value. *)
Theorem zero_charge_state_is_rejected (v z : Binary64.number) :
  Spec.is_zero z = true ->
  Binary64.calculate_B_xenon v z = Raise ZeroDivisionError
  /\ returned (Binary64.calculate_B_xenon v z) = None.
Proof.
  intros Hz.
  assert (H : Binary64.calculate_B_xenon v z = Raise ZeroDivisionError).
  { destruct z as [n | f]; cbn [Spec.is_zero] in Hz.
    - apply Z.eqb_eq in Hz. subst n. reflexivity.
    - unfold Binary64.calculate_B_xenon.
      change (Binary64.float_div Binary64.M_XE Binary64.M_HE)
        with (Ok (Binary64.M_XE / Binary64.M_HE)%float).
      cbn [bind].
      change (Binary64.math_sqrt (Binary64.M_XE / Binary64.M_HE)%float)
        with (Ok (PrimFloat.sqrt (Binary64.M_XE / Binary64.M_HE))%float).
      cbn [bind Binary64.true_div Binary64.to_float].
      change (Binary64.float_of_int Binary64.Z_HE) with (Ok 1%float).
      cbn [bind]. unfold Binary64.float_div.
      change zero with 0%float. rewrite Hz. reflexivity. }
  split; [exact H | now rewrite H].
Qed.

Lemma zero_charge_state_is_rejected_witness :
  Spec.is_zero (Binary64.Float neg_zero) = true
  /\ Binary64.calculate_B_xenon (Binary64.Int 100) (Binary64.Float neg_zero)
     = Raise ZeroDivisionError
  /\ returned (Binary64.calculate_B_xenon (Binary64.Int 100) (Binary64.Float neg_zero))
     = None.
Proof.
  split; [reflexivity |].
  apply (zero_charge_state_is_rejected (Binary64.Int 100) (Binary64.Float neg_zero)).
  reflexivity.
Defined.

(** ** The feasibility table *)

Section Table.

Import Binary64.
Local Open Scope string_scope.

(** A loop whose body prints one line for every element and returns prints
    those lines in order and returns. *)
Lemma for_each_prints {A : Type} (row : A -> string) (body : A -> io unit)
      (xs : list A) :
  (forall x out, In x xs -> body x out = (Ok tt, (out ++ [row x])%list)) ->
  forall out, for_each xs body out = (Ok tt, (out ++ map row xs)%list).
Proof.
  induction xs as [| x xs IH]; intros Hbody out; cbn [for_each map].
  - unfold call. now rewrite app_nil_r.
  - unfold io_bind. rewrite Hbody by (left; reflexivity).
    rewrite IH by (intros y out' Hy; apply Hbody; right; exact Hy).
    now rewrite <- app_assoc.
Qed.

(** A loop stops at the first element whose body raises: the lines of the
    elements before it stay printed, nothing follows. *)
Lemma for_each_stops {A : Type} (row : A -> string) (body : A -> io unit)
      (xs ys : list A) (x : A) (e : exception) :
  (forall y out, In y xs -> body y out = (Ok tt, (out ++ [row y])%list)) ->
  (forall out, body x out = (Raise e, out)) ->
  forall out,
    for_each (xs ++ x :: ys) body out = (Raise e, (out ++ map row xs)%list).
Proof.
  induction xs as [| y xs IH]; intros Hbody Hx out; cbn [for_each map app].
  - unfold io_bind. rewrite Hx. now rewrite app_nil_r.
  - unfold io_bind. rewrite Hbody by (left; reflexivity).
    rewrite IH by (try (intros y' out' Hy; apply Hbody; right; exact Hy); exact Hx).
    now rewrite <- app_assoc.
Qed.

(** Padding and reading a field are inverse to each other. *)
Lemma rstrip_spaces (n : nat) : Layout.rstrip (replicate n " ") = "".
Proof.
  induction n as [| n IH]; cbn [replicate Layout.rstrip]; [reflexivity |].
  now rewrite IH.
Qed.

Lemma rstrip_padding (s : string) (n : nat) :
  Layout.rstrip (s ++ replicate n " ") = Layout.rstrip s.
Proof.
  induction s as [| c s IH]; cbn [append Layout.rstrip].
  - apply rstrip_spaces.
  - now rewrite IH.
Qed.

Lemma length_replicate (n : nat) (c : ascii) : String.length (replicate n c) = n.
Proof.
  induction n as [| n IH]; cbn [replicate String.length]; [reflexivity | now rewrite IH].
Qed.

Lemma length_padded (s t : string) :
  String.length (s ++ t) = (String.length s + String.length t)%nat.
Proof.
  induction s as [| c s IH]; cbn [append String.length]; [reflexivity | now rewrite IH].
Qed.

Lemma left_aligned_ljust (width : nat) (s : string) :
  (String.length s <= width)%nat ->
  Layout.left_aligned width (ljust width s) = Some (Layout.rstrip s).
Proof.
  intros Hlen. unfold Layout.left_aligned, ljust.
  rewrite length_padded, length_replicate.
  replace (String.length s + (width - String.length s))%nat with width by lia.
  rewrite Nat.eqb_refl. now rewrite rstrip_padding.
Qed.

(** The seventeen lines of a run of the script. *)
Lemma main_output :
  main =
  (Ok tt,
   [ "-------------------------------------------------------------------------";
     "PHASE 0 DATA: Required Magnetic Flux Density (B) in Tesla";
     "Target Parameter: L/r ≈ 3.81 (from He benchmark )";
     "-------------------------------------------------------------------------";
     "Voltage (V)     | B-Field (z=1)   | B-Field (z=2)   | B-Field (z=3)  ";
     "-------------------------------------------------------------------------";
     "100             | 0.629           | 0.445           | 0.363          ";
     "200             | 0.890           | 0.629           | 0.514          ";
     "300             | 1.090           | 0.770           | 0.629          ";
     "400             | 1.258           | 0.890           | 0.726          ";
     "500             | 1.407           | 0.995           | 0.812          ";
     "600             | 1.541           | 1.090           | 0.890          ";
     "700             | 1.664           | 1.177           | 0.961          ";
     "800             | 1.779           | 1.258           | 1.027          ";
     "900             | 1.887           | 1.334           | 1.090          ";
     "1000            | 1.989           | 1.407           | 1.149          ";
     "-------------------------------------------------------------------------" ]).
Proof. vm_compute. reflexivity. Qed.

(** Evaluate the three calls of a row and check the line against them. *)
Ltac check_row :=
  lazymatch goal with
  | |- Layout.data_row ?v ?line =>
      let r1 := eval vm_compute in (calculate_B_xenon (Int v) (Int 1)) in
      let r2 := eval vm_compute in (calculate_B_xenon (Int v) (Int 2)) in
      let r3 := eval vm_compute in (calculate_B_xenon (Int v) (Int 3)) in
      lazymatch constr:((r1, r2, r3)) with
      | (Ok ?b1, Ok ?b2, Ok ?b3) =>
          exists b1, b2, b3; repeat split; vm_compute; reflexivity
      end
  end.

(** C6: the table generator prints the banner and header lines, then
    exactly 10 data rows, one per voltage 100, 200, ..., 1000 in ascending
    order, then the footer.  Each row holds the integer voltage left-aligned
    in a field of width 15 and the calculator's values for the charge states
    1, 2 and 3, each as a fixed-point decimal with exactly 3 digits after
    the point, left-aligned in a field of width 15, with " | " between the
    columns. *)
Theorem feasibility_table_layout :
  exists rows : list string,
    main = (Ok tt, (Layout.banner ++ rows ++ Layout.footer)%list)
    /\ List.length rows = 10%nat
    /\ Forall2 Layout.data_row Layout.voltages rows.
Proof.
  exists [ "100             | 0.629           | 0.445           | 0.363          ";
           "200             | 0.890           | 0.629           | 0.514          ";
           "300             | 1.090           | 0.770           | 0.629          ";
           "400             | 1.258           | 0.890           | 0.726          ";
           "500             | 1.407           | 0.995           | 0.812          ";
           "600             | 1.541           | 1.090           | 0.890          ";
           "700             | 1.664           | 1.177           | 0.961          ";
           "800             | 1.779           | 1.258           | 1.027          ";
           "900             | 1.887           | 1.334           | 1.090          ";
           "1000            | 1.989           | 1.407           | 1.149          " ].
  split; [exact main_output | split; [reflexivity |]].
  unfold Layout.voltages.
  repeat (apply Forall2_cons; [check_row |]).
  apply Forall2_nil.
Qed.

Ltac check_call :=
  lazymatch goal with
  | |- Layout.call_in_domain ?v ?z =>
      let r := eval vm_compute in (calculate_B_xenon (Int v) (Int z)) in
      lazymatch r with
      | Ok ?b => split; [reflexivity | split; [discriminate |
                   exists b; split; vm_compute; reflexivity]]
      end
  end.

(** C9: over the table's fixed range (voltages 100 to 1000 in steps of 100,
    charge states 1, 2, 3) every call of the calculator is in its domain and
    returns, and the table generator runs to completion: it returns without
    an exception and has printed all seventeen lines. *)
Theorem feasibility_table_completes :
  range 100 1001 100 = Ok Layout.voltages
  /\ Forall (fun v => Forall (Layout.call_in_domain v) Layout.charge_states)
            Layout.voltages
  /\ fst main = Ok tt
  /\ List.length (snd main) = 17%nat.
Proof.
  split; [vm_compute; reflexivity |].
  split.
  - unfold Layout.voltages, Layout.charge_states.
    repeat (apply Forall_cons; [repeat (apply Forall_cons; [check_call |]); apply Forall_nil |]).
    apply Forall_nil.
  - rewrite main_output. split; reflexivity.
Qed.

End Table.

(** * Further properties of the calculator over the reals *)

Section Domain.

Local Open Scope R_scope.

(** The coefficient of the one-coefficient form is positive. *)
Lemma C_pos : 0 < Spec.C.
Proof.
  unfold Spec.C. rewrite sqrt_V_HE.
  pose proof sqrt_mass_ratio_bounds as [Hlo _].
  unfold Ideal.B_HE. lra.
Qed.

Lemma V_HE_100 : Ideal.V_HE = 100.
Proof. unfold Ideal.V_HE. lra. Qed.

(** In the domain the calculator is [C * sqrt (V / z)]. *)
Lemma calculate_B_xenon_ratio_form (V z : R) :
  0 <= V -> 0 < z ->
  Ideal.calculate_B_xenon V z = Ok (Spec.C * sqrt (V / z)).
Proof.
  intros HV Hz. rewrite calculate_B_xenon_in_domain by assumption.
  f_equal. unfold Spec.C. rewrite sqrt_V_HE.
  replace (V / z) with (Ideal.Z_HE / z * (V / Ideal.V_HE) * Ideal.V_HE)
    by (rewrite V_HE_100; unfold Ideal.Z_HE; field; lra).
  assert (Hc : 0 <= Ideal.Z_HE / z) by (apply Rlt_le, inv_charge_pos, Hz).
  assert (Hv : 0 <= V / Ideal.V_HE) by (apply voltage_ratio_nonneg, HV).
  rewrite sqrt_mult
    by (first [apply Rmult_le_pos; assumption | rewrite V_HE_100; lra]).
  rewrite sqrt_mult by assumption.
  rewrite sqrt_V_HE. field.
Qed.

End Domain.

Section Scaling.

Local Open Scope R_scope.

(** X6: everywhere in the range of the table, also between its grid points
    (100 <= V <= 1000, 1 <= z <= 3), the required flux density lies between
    0.363 T and 1.990 T. *)
Theorem flux_density_in_table_range (V z : R) :
  100 <= V <= 1000 -> 1 <= z <= 3 ->
  exists b : R, Ideal.calculate_B_xenon V z = Ok b /\ 0.363 < b < 1.990.
Proof.
  intros [HV1 HV2] [Hz1 Hz2].
  eexists. split; [apply calculate_B_xenon_ratio_form; lra |].
  assert (Hlo : 100 / 3 <= V / z).
  { apply Rmult_le_reg_r with (r := z); [lra |].
    replace (V / z * z) with V by (field; lra). nra. }
  assert (Hhi : V / z <= 1000).
  { apply Rmult_le_reg_r with (r := z); [lra |].
    replace (V / z * z) with V by (field; lra). nra. }
  assert (H1 : 5.7735 < sqrt (100 / 3))
    by (apply (sqrt_enclosed 5.7735 5.7736); lra).
  assert (H2 : sqrt 1000 < 31.6228)
    by (apply (sqrt_enclosed 31.6227 31.6228); lra).
  assert (H3 : sqrt (100 / 3) <= sqrt (V / z)) by (apply sqrt_le_1_alt, Hlo).
  assert (H4 : sqrt (V / z) <= sqrt 1000) by (apply sqrt_le_1_alt, Hhi).
  assert (HC : 0.0629071 < Spec.C < 0.0629072).
  { unfold Spec.C. rewrite sqrt_V_HE.
    pose proof sqrt_mass_ratio_bounds as [Ha Hb]. unfold Ideal.B_HE. lra. }
  split; nra.
Qed.

Lemma flux_density_in_table_range_witness :
  100 <= 250 <= 1000 /\ 1 <= 2 <= 3
  /\ exists b : R, Ideal.calculate_B_xenon 250 2 = Ok b /\ 0.363 < b < 1.990.
Proof.
  split; [lra | split; [lra | apply (flux_density_in_table_range 250 2); lra]].
Defined.

End Scaling.

(** * Further properties of the binary64 program *)

Section Faults.

Import Binary64.

Lemma mass_term_returns :
  bind (float_div M_XE M_HE) math_sqrt = Ok (PrimFloat.sqrt (M_XE / M_HE)).
Proof. reflexivity. Qed.

Lemma V_HE_not_zero : PrimFloat.eqb V_HE zero = false.
Proof. reflexivity. Qed.

(** The division by [V_HE] raises only when the voltage is an int too large
    for a float. *)
Lemma voltage_division (v : number) :
  true_div v (Float V_HE) = Raise OverflowError
  \/ exists a : float, true_div v (Float V_HE) = Ok (a / V_HE)%float.
Proof.
  destruct v as [n | f]; cbn [true_div to_float bind].
  - unfold float_of_int.
    destruct (is_infinity (SF2Prim (binary_normalize prec emax n 0 false)));
      cbn [bind]; [left; reflexivity |].
    right. eexists. unfold float_div. now rewrite V_HE_not_zero.
  - right. exists f. unfold float_div. now rewrite V_HE_not_zero.
Qed.

(** [math.sqrt] raises nothing but ValueError. *)
Lemma math_sqrt_faults (x : float) (e : exception) :
  math_sqrt x = Raise e -> e = ValueError.
Proof.
  unfold math_sqrt.
  destruct (is_nan x); [discriminate |].
  destruct (PrimFloat.ltb x zero); [| discriminate].
  intros H. now injection H.
Qed.

(** X7: ZeroDivisionError has no other cause than a zero charge state: with
    a charge state that is not zero (int or float, also negative, infinite or
    nan) the calculator never raises it, whatever the voltage. *)
Theorem zero_division_needs_zero_charge (v z : number) :
  Spec.is_zero z = false ->
  calculate_B_xenon v z <> Raise ZeroDivisionError.
Proof.
  intros Hz. unfold calculate_B_xenon.
  change (bind (float_div M_XE M_HE)
               (fun r => bind (math_sqrt r) ?k))
    with (bind (bind (float_div M_XE M_HE) math_sqrt) k).
  rewrite mass_term_returns. cbn [bind].
  assert (Hq : true_div (Int Z_HE) z = Raise OverflowError
               \/ exists q, true_div (Int Z_HE) z = Ok q).
  { destruct z as [b | f]; cbn [Spec.is_zero] in Hz.
    - cbn [true_div]. unfold int_true_div. rewrite Hz.
      change (Z.abs Z_HE =? 0)%Z with false. cbv iota.
      match goal with
      | |- context [if is_infinity ?f then _ else _] => destruct (is_infinity f)
      end; [left; reflexivity | right; eexists; reflexivity].
    - right. cbn [true_div to_float]. change (float_of_int Z_HE) with (Ok 1%float).
      cbn [bind]. unfold float_div. change zero with 0%float. rewrite Hz.
      eexists. reflexivity. }
  destruct Hq as [Hq | [q Hq]]; rewrite Hq; cbn [bind]; [discriminate |].
  destruct (math_sqrt q) as [term_charge | e] eqn:Hsq; cbn [bind].
  2: { apply math_sqrt_faults in Hsq. subst e. discriminate. }
  destruct (voltage_division v) as [Hv | [a Hv]]; rewrite Hv; cbn [bind];
    [discriminate |].
  destruct (math_sqrt (a / V_HE)) as [term_voltage | e] eqn:Hsv; cbn [bind].
  - discriminate.
  - apply math_sqrt_faults in Hsv. subst e. discriminate.
Qed.

Lemma zero_division_needs_zero_charge_witness :
  Spec.is_zero (Float (-2)%float) = false
  /\ calculate_B_xenon (Int 100) (Float (-2)%float) <> Raise ZeroDivisionError.
Proof.
  split; [reflexivity |].
  apply (zero_division_needs_zero_charge (Int 100) (Float (-2)%float)).
  reflexivity.
Defined.

End Faults.

Section WholeVolts.

Import Binary64.
Local Open Scope Z_scope.

(** Every whole-volt step up to 1000 V, at the charge states 1, 2 and 3,
    evaluated. *)
Lemma whole_volt_steps_evaluated :
  forallb (fun n =>
    forallb (fun z =>
      match calculate_B_xenon (Int (Z.of_nat n)) (Int z),
            calculate_B_xenon (Int (Z.of_nat n + 1)) (Int z),
            calculate_B_xenon (Int (Z.of_nat n + 1)) (Int (z + 1)) with
      | Ok b, Ok b_up, Ok b_right =>
          is_finite b_up && (b <? b_up)%float && (b_right <? b_up)%float
      | _, _, _ => false
      end) [1; 2; 3]) (seq 0 1000) = true.
Proof. vm_compute. reflexivity. Qed.

(** X8: on binary64 floats, rounding does not break the order on whole-volt
    inputs: for every integer voltage 0 <= v < 1000 and charge state 1, 2
    or 3 the calculator returns at v and at v + 1, the value at v + 1 is
    finite and strictly larger than the value at v, and strictly larger than
    the value at v + 1 with the next charge state. *)
Theorem whole_volt_steps_strictly_ordered (v z : Z) :
  0 <= v < 1000 -> 1 <= z <= 3 ->
  exists b b_up b_right : float,
    calculate_B_xenon (Int v) (Int z) = Ok b
    /\ calculate_B_xenon (Int (v + 1)) (Int z) = Ok b_up
    /\ calculate_B_xenon (Int (v + 1)) (Int (z + 1)) = Ok b_right
    /\ is_finite b_up = true
    /\ (b <? b_up)%float = true
    /\ (b_right <? b_up)%float = true.
Proof.
  intros Hv Hz.
  pose proof whole_volt_steps_evaluated as Hall.
  rewrite forallb_forall in Hall.
  specialize (Hall (Z.to_nat v)).
  rewrite forallb_forall in Hall.
  assert (Hin : In (Z.to_nat v) (seq 0 1000)) by (apply in_seq; lia).
  assert (Hinz : In z [1; 2; 3]) by (cbn [In]; lia).
  specialize (Hall Hin z Hinz).
  rewrite Z2Nat.id in Hall by lia.
  destruct (calculate_B_xenon (Int v) (Int z)) as [b | ]; [| discriminate Hall].
  destruct (calculate_B_xenon (Int (v + 1)) (Int z)) as [b_up | ];
    [| discriminate Hall].
  destruct (calculate_B_xenon (Int (v + 1)) (Int (z + 1))) as [b_right | ];
    [| discriminate Hall].
  apply andb_prop in Hall as [Hall Hright].
  apply andb_prop in Hall as [Hfin Hup].
  exists b, b_up, b_right. repeat split; assumption.
Qed.

Lemma whole_volt_steps_strictly_ordered_witness :
  0 <= 230 < 1000 /\ 1 <= 2 <= 3
  /\ exists b b_up b_right : float,
       calculate_B_xenon (Int 230) (Int 2) = Ok b
       /\ calculate_B_xenon (Int (230 + 1)) (Int 2) = Ok b_up
       /\ calculate_B_xenon (Int (230 + 1)) (Int (2 + 1)) = Ok b_right
       /\ is_finite b_up = true
       /\ (b <? b_up)%float = true
       /\ (b_right <? b_up)%float = true.
Proof.
  split; [lia | split; [lia |]].
  apply (whole_volt_steps_strictly_ordered 230 2); lia.
Defined.

End WholeVolts.

(** * The fields of a row *)

Section Fields.

Import Binary64.
Local Open Scope string_scope.

Lemma prefix_padded (s t : string) : prefix s (s ++ t) = true.
Proof.
  induction s as [| c s IH]; cbn [append]; [now destruct t |].
  cbn [prefix]. destruct (ascii_dec c c) as [_ | Hne]; [exact IH | now elim Hne].
Qed.

(** The field of a text is the text followed by padding only: it is as
    wide as the larger of the field width and the text, so a text longer
    than the field is never cut. *)
Lemma ljust_never_truncates (width : nat) (s : string) :
  String.length (ljust width s) = Nat.max width (String.length s)
  /\ prefix s (ljust width s) = true.
Proof.
  unfold ljust. split; [| apply prefix_padded].
  rewrite length_padded, length_replicate. lia.
Qed.

(** The digits of a decimal numeral, read from the left with the digits
    before them already in [acc]. *)
Lemma digits_value_of_uint_acc (d : Decimal.uint) (acc : positive) :
  Layout.digits_value (Z.pos acc) (NilEmpty.string_of_uint d)
  = Some (Z.pos (Pos.of_uint_acc d acc)).
Proof.
  revert acc.
  induction d as [| d IH | d IH | d IH | d IH | d IH | d IH | d IH | d IH | d IH | d IH];
    intros acc; cbn [NilEmpty.string_of_uint Layout.digits_value Pos.of_uint_acc];
    [reflexivity | ..];
    match goal with
    | |- context [Layout.digit_value ?c] =>
        let k := eval vm_compute in (Layout.digit_value c) in
        change (Layout.digit_value c) with k
    end;
    cbv iota; rewrite <- IH; f_equal; lia.
Qed.

Lemma digits_value_of_uint (d : Decimal.uint) :
  Layout.digits_value 0 (NilEmpty.string_of_uint d) = Some (Z.of_N (Pos.of_uint d)).
Proof.
  induction d as [| d IH | d IH | d IH | d IH | d IH | d IH | d IH | d IH | d IH | d IH];
    cbn [NilEmpty.string_of_uint Layout.digits_value Pos.of_uint];
    [reflexivity | exact IH | ..];
    match goal with
    | |- context [Layout.digit_value ?c] =>
        let k := eval vm_compute in (Layout.digit_value c) in
        change (Layout.digit_value c) with k
    end;
    cbv iota; apply (digits_value_of_uint_acc d).
Qed.

(** The text of a non-negative int is a non-empty run of digits. *)
Lemma str_int_digits (n : Z) :
  (0 <= n)%Z ->
  str_int n <> "" /\ Layout.digits_value 0 (str_int n) = Some n.
Proof.
  intros Hn. destruct n as [| p | p]; [split; [discriminate | reflexivity] | | lia].
  unfold str_int. cbn [Z.to_int NilZero.string_of_int].
  assert (Hnil : Pos.to_uint p <> Decimal.Nil) by apply Unsigned.to_uint_nonnil.
  assert (Hs : NilZero.string_of_uint (Pos.to_uint p)
               = NilEmpty.string_of_uint (Pos.to_uint p))
    by (destruct (Pos.to_uint p); [now elim Hnil | reflexivity ..]).
  rewrite Hs. split.
  - destruct (Pos.to_uint p); [now elim Hnil | discriminate ..].
  - rewrite digits_value_of_uint, Unsigned.of_to. reflexivity.
Qed.

(** X10: writing an int and reading the digits back gives the int: for
    every n >= 0 the text str(n) parses, as a decimal numeral, to n. *)
Theorem decimal_value_str_int (n : Z) :
  (0 <= n)%Z -> Layout.decimal_value (str_int n) = Some n.
Proof.
  intros Hn. destruct (str_int_digits n Hn) as [Hne Hval].
  unfold Layout.decimal_value.
  destruct (str_int n); [now elim Hne | exact Hval].
Qed.

Lemma decimal_value_str_int_witness :
  (0 <= 1000)%Z /\ Layout.decimal_value (str_int 1000) = Some 1000%Z.
Proof.
  split; [lia | apply (decimal_value_str_int 1000); lia].
Defined.

(** A digit is not a space. *)
Lemma digit_not_space (c : ascii) (d : Z) :
  Layout.digit_value c = Some d -> Ascii.eqb c " " = false.
Proof.
  intros Hd. destruct (Ascii.eqb_spec c " ") as [-> | _]; [discriminate Hd | reflexivity].
Qed.

(** A run of digits has no padding to strip. *)
Lemma rstrip_digits (s : string) (acc n : Z) :
  Layout.digits_value acc s = Some n -> Layout.rstrip s = s.
Proof.
  revert acc. induction s as [| c s IH]; intros acc; cbn [Layout.digits_value Layout.rstrip];
    [reflexivity |].
  destruct (Layout.digit_value c) as [d |] eqn:Hd; [| discriminate].
  intros Hs. rewrite (IH _ Hs).
  destruct s; [now rewrite (digit_not_space c d Hd) | reflexivity].
Qed.

(** X11: the voltage column reads back: for every voltage v >= 0 whose
    digits fit the field, the field the script prints for it, str(v) padded
    to 15, is 15 wide and holds the integer v left-aligned. *)
Theorem voltage_field_reads_back (v : Z) :
  (0 <= v)%Z -> (String.length (str_int v) <= 15)%nat ->
  Layout.holds_int v (ljust 15 (str_int v)) = true.
Proof.
  intros Hv Hlen. unfold Layout.holds_int.
  rewrite left_aligned_ljust by exact Hlen.
  destruct (str_int_digits v Hv) as [Hne Hval].
  rewrite (rstrip_digits _ _ _ Hval). unfold Layout.decimal_value.
  destruct (str_int v); [now elim Hne |].
  rewrite Hval. apply Z.eqb_refl.
Qed.

Lemma voltage_field_reads_back_witness :
  (0 <= 1000)%Z /\ (String.length (str_int 1000) <= 15)%nat
  /\ Layout.holds_int 1000 (ljust 15 (str_int 1000)) = true.
Proof.
  split; [lia | split; [cbn; lia |]].
  apply (voltage_field_reads_back 1000); [lia | cbn; lia].
Defined.

End Fields.

(** * The loop and the output *)

Section Output.

Import Binary64.
Local Open Scope Z_scope.

(** X12: [range(start, stop, step)] with a positive step holds exactly the
    numbers from [start] (included) up to [stop] (excluded) that are a whole
    number of steps away from [start]. *)
Theorem range_members (start stop step x : Z) :
  0 < step ->
  exists l : list Z,
    range start stop step = Ok l
    /\ (In x l <-> start <= x < stop /\ (x - start) mod step = 0).
Proof.
  intros Hstep. unfold range.
  destruct (Z.eqb_spec step 0) as [-> | _]; [lia |].
  destruct (Z.ltb_spec 0 step) as [_ | ?]; [| lia].
  eexists. split; [reflexivity |].
  set (n := (stop - start + step - 1) / step).
  assert (Hn : step * n <= stop - start + step - 1 < step * n + step).
  { pose proof (Z.div_mod (stop - start + step - 1) step ltac:(lia)) as Hdm.
    pose proof (Z.mod_pos_bound (stop - start + step - 1) step Hstep) as Hmod.
    fold n in Hdm. lia. }
  rewrite in_map_iff. split.
  - intros [i [Hx Hi]]. apply in_seq in Hi. subst x.
    replace (start + step * Z.of_nat i - start) with (Z.of_nat i * step) by ring.
    rewrite Z_mod_mult.
    assert (Hlt : Z.of_nat i < n) by lia.
    split; [nia | reflexivity].
  - intros [[Hlo Hhi] Hmod].
    apply Z_div_exact_full_2 in Hmod; [| lia].
    set (i := (x - start) / step) in Hmod.
    assert (Hi : 0 <= i < n) by nia.
    exists (Z.to_nat i). split; [rewrite Z2Nat.id by lia; lia |].
    apply in_seq. lia.
Qed.

Lemma range_members_witness :
  0 < 100
  /\ exists l : list Z,
       range 100 1001 100 = Ok l
       /\ (In 1000 l <-> 100 <= 1000 < 1001 /\ (1000 - 100) mod 100 = 0).
Proof.
  split; [lia | apply (range_members 100 1001 100 1000); lia].
Defined.

End Output.

(** * The printed digits and the real-number values *)

Section PrintedDigits.

Import Binary64.

(** In the domain the real-number calculator is one square root. *)
Lemma calculate_B_xenon_one_root (V z : R) :
  (0 <= V)%R -> (0 < z)%R ->
  Ideal.calculate_B_xenon V z
  = Ok (sqrt (Ideal.B_HE * Ideal.B_HE * (Ideal.M_XE / Ideal.M_HE) * (V / z) / 100))%R.
Proof.
  intros HV Hz. rewrite calculate_B_xenon_ratio_form by assumption.
  f_equal. unfold Spec.C. rewrite sqrt_V_HE.
  pose proof mass_ratio_pos as Hm.
  assert (Hr : (0 <= V / z)%R)
    by (apply Rmult_le_pos; [| apply Rlt_le, Rinv_0_lt_compat]; lra).
  assert (HB : (0 <= Ideal.B_HE)%R) by (unfold Ideal.B_HE; lra).
  replace (Ideal.B_HE * Ideal.B_HE * (Ideal.M_XE / Ideal.M_HE) * (V / z) / 100)%R
    with ((Ideal.B_HE / 10) * (Ideal.B_HE / 10) * (Ideal.M_XE / Ideal.M_HE) * (V / z))%R
    by lra.
  set (a := (Ideal.B_HE / 10)%R).
  assert (Ha : (0 <= a)%R) by (unfold a; lra).
  assert (Haa : (0 <= a * a)%R) by (apply Rmult_le_pos; assumption).
  rewrite sqrt_mult by (first [apply Rmult_le_pos; lra | assumption]).
  rewrite sqrt_mult by lra.
  rewrite sqrt_square by assumption.
  unfold a. lra.
Qed.

(** Evaluate the float program on a cell, read the printed text back and
    enclose the real value between the two neighbouring half-thousandths. *)
Ltac check_cell :=
  lazymatch goal with
  | |- exists (b : float) (n : Z) (r : R),
         calculate_B_xenon (Int ?v) (Int ?z) = Ok b /\ _ =>
      let rb := eval vm_compute in (calculate_B_xenon (Int v) (Int z)) in
      lazymatch rb with
      | Ok ?b =>
          let rn := eval vm_compute in (Layout.thousandths (format_fixed 3 b)) in
          lazymatch rn with
          | Some ?n =>
              exists b, n; eexists;
              split; [vm_compute; reflexivity |];
              split; [vm_compute; reflexivity |];
              split; [apply calculate_B_xenon_one_root; lra |];
              apply Rabs_def1;
              match goal with
              | |- context [sqrt ?X] =>
                  let H := fresh "H" in
                  assert (H : (IZR n / 1000 - 1 / 2000 < sqrt X
                               < IZR n / 1000 + 1 / 2000)%R)
                    by (apply sqrt_enclosed;
                        unfold Ideal.B_HE, Ideal.M_XE, Ideal.M_HE; lra);
                  lra
              end
          end
      end
  end.

(** X14: float rounding never changes a printed digit of the table: in every
    cell the three-decimal number printed from the binary64 value is the
    real-number value of the scaling law rounded to the nearest thousandth
    (the real value is less than 0.0005 away from it). *)
Theorem table_shows_rounded_real_values :
  Forall (fun v =>
    Forall (fun z =>
      exists (b : float) (n : Z) (r : R),
        calculate_B_xenon (Int v) (Int z) = Ok b
        /\ Layout.thousandths (format_fixed 3 b) = Some n
        /\ Ideal.calculate_B_xenon (IZR v) (IZR z) = Ok r
        /\ (Rabs (r - IZR n / 1000) < 1 / 2000)%R)
      Layout.charge_states)
    Layout.voltages.
Proof.
  unfold Layout.voltages, Layout.charge_states.
  repeat (apply Forall_cons;
          [repeat (apply Forall_cons; [check_cell |]); apply Forall_nil |]).
  apply Forall_nil.
Qed.

End PrintedDigits.

(** * Three decimals *)

Section FixedPoint.

Import Binary64.
Local Open Scope string_scope.

(** Rounding half-even gives a nearest integer. *)
Lemma round_half_even_nearest (t d : Z) :
  (0 < d)%Z -> (0 <= t)%Z ->
  (0 <= round_half_even t d)%Z
  /\ (2 * Z.abs (t - round_half_even t d * d) <= d)%Z.
Proof.
  intros Hd Ht. unfold round_half_even.
  pose proof (Z.div_mod t d ltac:(lia)) as Hdm.
  pose proof (Z.mod_pos_bound t d Hd) as Hmod.
  assert (Hq : (0 <= t / d)%Z) by (apply Z.div_pos; lia).
  destruct (Z.ltb_spec (2 * (t mod d)) d);
    [| destruct (Z.ltb_spec d (2 * (t mod d))); [| destruct (Z.even (t / d))]];
    split; nia.
Qed.

Lemma substring_all (t : string) : substring 0 (String.length t) t = t.
Proof.
  induction t as [| c t IH]; cbn [String.length substring]; [reflexivity | now rewrite IH].
Qed.

Lemma substring_before (s u : string) : substring 0 (String.length s) (s ++ u) = s.
Proof.
  induction s as [| c s IH]; cbn [String.length append substring].
  - now destruct u.
  - now rewrite IH.
Qed.

Lemma substring_after (s t : string) (c : ascii) :
  substring (S (String.length s)) (String.length t) (s ++ String c t) = t.
Proof.
  induction s as [| a s IH]; cbn [String.length append substring].
  - apply substring_all.
  - exact IH.
Qed.

(** A digit is not the decimal point. *)
Lemma digit_not_point (c : ascii) (d : Z) :
  Layout.digit_value c = Some d -> c <> "."%char.
Proof.
  intros Hd ->. discriminate Hd.
Qed.

(** The first decimal point after a run of digits is where the run ends. *)
Lemma index_point (s t : string) (acc n : Z) :
  Layout.digits_value acc s = Some n ->
  index 0 "." (s ++ String "." t) = Some (String.length s).
Proof.
  revert acc. induction s as [| c s IH]; intros acc; cbn [Layout.digits_value append].
  - intros _. cbn [index prefix String.length].
    destruct (ascii_dec "." "."); [now destruct t | contradiction].
  - destruct (Layout.digit_value c) as [d |] eqn:Hd; [| discriminate].
    intros Hs. cbn [index prefix String.length].
    destruct (ascii_dec "." c) as [Heq | _];
      [symmetry in Heq; now apply digit_not_point in Hd |].
    now rewrite (IH _ Hs).
Qed.

(** The three digits after the point, for every remainder. *)
Lemma zero_padded_3_evaluated :
  forallb (fun i =>
             let r := Z.of_nat i in
             (String.length (zero_padded 3 r) =? 3)%nat
             && match Layout.decimal_value (zero_padded 3 r) with
                | Some k => (k =? r)%Z
                | None => false
                end)
          (seq 0 1000) = true.
Proof. vm_compute. reflexivity. Qed.

Lemma zero_padded_3 (r : Z) :
  (0 <= r < 1000)%Z ->
  String.length (zero_padded 3 r) = 3%nat
  /\ Layout.decimal_value (zero_padded 3 r) = Some r.
Proof.
  intros Hr. pose proof zero_padded_3_evaluated as Hall.
  rewrite forallb_forall in Hall.
  specialize (Hall (Z.to_nat r) ltac:(apply in_seq; lia)).
  cbv zeta in Hall. rewrite Z2Nat.id in Hall by lia.
  apply andb_prop in Hall as [Hlen Hval].
  apply Nat.eqb_eq in Hlen.
  destruct (Layout.decimal_value (zero_padded 3 r)) as [k |]; [| discriminate].
  apply Z.eqb_eq in Hval. subst k. split; [assumption | reflexivity].
Qed.

(** Reading a fixed-point text with three decimals. *)
Lemma thousandths_of_text (q r : Z) :
  (0 <= q)%Z -> (0 <= r < 1000)%Z ->
  Layout.thousandths (str_int q ++ "." ++ zero_padded 3 r) = Some (1000 * q + r)%Z.
Proof.
  intros Hq Hr.
  destruct (str_int_digits q Hq) as [Hne Hval].
  destruct (zero_padded_3 r Hr) as [Hlen Hfrac].
  unfold Layout.thousandths. cbn [append].
  rewrite (index_point _ _ _ _ Hval).
  rewrite substring_before.
  replace (String.length (str_int q ++ String "." (zero_padded 3 r))
           - S (String.length (str_int q)))%nat
    with (String.length (zero_padded 3 r))
    by (rewrite length_padded; cbn [String.length]; lia).
  rewrite substring_after, Hlen. cbn [Nat.eqb].
  rewrite Hfrac. unfold Layout.decimal_value.
  destruct (str_int q); [now elim Hne | now rewrite Hval].
Qed.


(** The value of a positive finite float as a fraction. *)
Lemma float_value_fraction (x : float) (m : positive) (e : Z) :
  Prim2SF x = S754_finite false m e ->
  exists q : Q,
    Layout.float_value x = Some q
    /\ (q == if (0 <=? e)%Z then inject_Z (Z.pos m * 2 ^ e)
             else Z.pos m # Z.to_pos (2 ^ (- e)))%Q.
Proof.
  intros Hx. unfold Layout.float_value. rewrite Hx.
  eexists. split; [reflexivity |].
  rewrite Qmult_1_l.
  destruct (Z.leb_spec 0 e) as [He | He].
  - rewrite inject_Z_mult. apply Qmult_comp; [reflexivity |].
    symmetry. apply (Zpower_Qpower 2 e He).
  - assert (Hpow : (0 < 2 ^ (- e))%Z) by (apply Z.pow_pos_nonneg; lia).
    rewrite (Qmake_Qdiv (Z.pos m) (Z.to_pos (2 ^ (- e)))).
    rewrite Z2Pos.id by exact Hpow.
    unfold Qdiv. apply Qmult_comp; [reflexivity |].
    replace e with (- - e)%Z at 1 by lia.
    rewrite Qpower_opp. apply Qinv_comp.
    symmetry. apply (Zpower_Qpower 2 (- e)). lia.
Qed.

(** A number of thousandths is nearest to a fraction. *)
Lemma nearest_thousandth (n t : Z) (d : positive) :
  (2 * Z.abs (1000 * t - n * Z.pos d) <= Z.pos d)%Z ->
  (Qabs ((n # 1000) - (t # d)) <= 1 # 2000)%Q.
Proof.
  intros H. unfold Qminus, Qplus, Qopp, Qabs, Qle. cbn [Qnum Qden].
  rewrite Pos2Z.inj_mul. lia.
Qed.


(** The text of a positive finite float with three decimals: its digits
    read back as a number of thousandths nearest to the float. *)
Lemma format_fixed_3_text (x : float) (m : positive) (e : Z) :
  Prim2SF x = S754_finite false m e ->
  exists n : Z,
    (0 <= n)%Z
    /\ format_fixed 3 x = str_int (n / 1000) ++ "." ++ zero_padded 3 (n mod 1000)
    /\ Layout.is_fixed_3 x (format_fixed 3 x) = true.
Proof.
  intros Hx.
  set (n := (if 0 <=? e then Z.pos m * 2 ^ e * 1000
             else round_half_even (Z.pos m * 1000) (2 ^ (- e)))%Z).
  assert (Hpow : (e < 0 -> 0 < 2 ^ (- e))%Z)
    by (intros He; apply Z.pow_pos_nonneg; lia).
  assert (Hn : (0 <= n)%Z).
  { unfold n. destruct (Z.leb_spec 0 e) as [He | He].
    - assert (0 <= 2 ^ e)%Z by (apply Z.pow_nonneg; lia). nia.
    - apply round_half_even_nearest; [apply Hpow, He | lia]. }
  assert (Htext : format_fixed 3 x
                  = str_int (n / 1000) ++ "." ++ zero_padded 3 (n mod 1000)).
  { unfold format_fixed. rewrite Hx. reflexivity. }
  exists n. split; [exact Hn | split; [exact Htext |]].
  rewrite Htext. unfold Layout.is_fixed_3.
  rewrite thousandths_of_text
    by (first [apply Z.div_pos; lia | apply Z.mod_pos_bound; lia]).
  replace (1000 * (n / 1000) + n mod 1000)%Z with n
    by (apply Z.div_mod; lia).
  destruct (float_value_fraction x m e Hx) as [q [Hq Heq]].
  rewrite Hq. apply Qle_bool_iff. rewrite Heq.
  unfold n. destruct (Z.leb_spec 0 e) as [He | He].
  - apply (nearest_thousandth _ (Z.pos m * 2 ^ e) 1). lia.
  - apply nearest_thousandth. rewrite Z2Pos.id by (apply Hpow, He).
    pose proof (round_half_even_nearest (Z.pos m * 1000) (2 ^ (- e))
                  (Hpow He) ltac:(lia)) as [_ Hnear].
    replace (1000 * Z.pos m)%Z with (Z.pos m * 1000)%Z by ring.
    exact Hnear.
Qed.

(** Text that ends in a run that has no padding has no padding. *)
Lemma rstrip_before (s t : string) :
  t <> "" -> Layout.rstrip t = t -> Layout.rstrip (s ++ t) = s ++ t.
Proof.
  intros Hne Ht. induction s as [| c s IH]; cbn [append Layout.rstrip]; [exact Ht |].
  rewrite IH. destruct (s ++ t) eqn:Hst; [| reflexivity].
  destruct s; cbn [append] in Hst; [contradiction | discriminate].
Qed.

(** X15: the flux-density columns read back: for every positive finite float
    whose text fits the field, the field the script prints for it (three
    decimals, padded to 15) is 15 wide and holds, left-aligned, digits, a
    point and exactly three digits, and no number with three decimals is
    nearer to the float than the one printed. *)
Theorem flux_field_reads_back (x : float) (m : positive) (e : Z) :
  Prim2SF x = S754_finite false m e ->
  (String.length (format_fixed 3 x) <= 15)%nat ->
  Layout.holds_fixed_3 x (ljust 15 (format_fixed 3 x)) = true.
Proof.
  intros Hx Hlen. unfold Layout.holds_fixed_3.
  rewrite left_aligned_ljust by exact Hlen.
  destruct (format_fixed_3_text x m e Hx) as [n [Hn [Htext Hnear]]].
  assert (Hstrip : Layout.rstrip (format_fixed 3 x) = format_fixed 3 x).
  { rewrite Htext.
    destruct (zero_padded_3 (n mod 1000) ltac:(apply Z.mod_pos_bound; lia))
      as [Hlen3 Hval].
    assert (Hne : zero_padded 3 (n mod 1000) <> "")
      by (intros Heq; rewrite Heq in Hlen3; discriminate Hlen3).
    apply rstrip_before; [discriminate |].
    change ("." ++ zero_padded 3 (n mod 1000))
      with (String "." "" ++ zero_padded 3 (n mod 1000)).
    apply rstrip_before; [exact Hne |].
    unfold Layout.decimal_value in Hval.
    destruct (zero_padded 3 (n mod 1000)) eqn:Hz; [discriminate Hval |].
    exact (rstrip_digits _ _ _ Hval). }
  rewrite Hstrip. exact Hnear.
Qed.

Lemma flux_field_reads_back_witness :
  Prim2SF 0x1.4215985ae72adp-1%float
  = S754_finite false 5666167912821421 (-53)
  /\ (String.length (format_fixed 3 0x1.4215985ae72adp-1%float) <= 15)%nat
  /\ Layout.holds_fixed_3 0x1.4215985ae72adp-1%float
       (ljust 15 (format_fixed 3 0x1.4215985ae72adp-1%float)) = true.
Proof.
  split; [reflexivity | split; [vm_compute; lia |]].
  apply (flux_field_reads_back 0x1.4215985ae72adp-1%float 5666167912821421 (-53));
    [reflexivity | vm_compute; lia].
Defined.

End FixedPoint.

(** * Not-a-number *)

Section NotANumber.

Import Binary64.

Lemma mul_nan_r (x : float) : (x * nan)%float = nan.
Proof.
  apply Prim2SF_inj. rewrite mul_spec.
  change (Prim2SF nan) with S754_nan.
  destruct (Prim2SF x); reflexivity.
Qed.

Lemma mul_nan_l (y : float) : (nan * y)%float = nan.
Proof.
  apply Prim2SF_inj. rewrite mul_spec.
  change (Prim2SF nan) with S754_nan.
  destruct (Prim2SF y); reflexivity.
Qed.

(** X16: a nan argument is not rejected.  With a nan voltage or a nan charge
    state the calculator never returns a number: when it returns, as it does
    at (nan, 1), it returns nan, without any exception. *)
Theorem nan_is_passed_through (v z : number) (r : float) :
  v = Float nan \/ z = Float nan ->
  calculate_B_xenon v z = Ok r ->
  r = nan.
Proof.
  intros Hnan. unfold calculate_B_xenon.
  change (bind (float_div M_XE M_HE)
               (fun m => bind (math_sqrt m) ?k))
    with (bind (bind (float_div M_XE M_HE) math_sqrt) k).
  rewrite mass_term_returns. cbn [bind].
  destruct Hnan as [-> | ->].
  - destruct (true_div (Int Z_HE) z) as [q |]; cbn [bind]; [| discriminate].
    destruct (math_sqrt q) as [term_charge |]; cbn [bind]; [| discriminate].
    change (true_div (Float nan) (Float V_HE)) with (Ok nan).
    cbn [bind]. change (math_sqrt nan) with (Ok nan). cbn [bind].
    intros H. injection H as <-. apply mul_nan_r.
  - change (true_div (Int Z_HE) (Float nan)) with (Ok nan).
    cbn [bind]. change (math_sqrt nan) with (Ok nan). cbn [bind].
    destruct (true_div v (Float V_HE)) as [q |]; cbn [bind]; [| discriminate].
    destruct (math_sqrt q) as [term_voltage |]; cbn [bind]; [| discriminate].
    intros H. injection H as <-.
    change (B_HE * PrimFloat.sqrt (M_XE / M_HE) * nan)%float with nan.
    apply mul_nan_l.
Qed.

Lemma nan_is_passed_through_witness :
  (Float nan = Float nan \/ Int 1 = Float nan)
  /\ calculate_B_xenon (Float nan) (Int 1) = Ok nan
  /\ nan = nan.
Proof.
  split; [left; reflexivity | split; [reflexivity |]].
  apply (nan_is_passed_through (Float nan) (Int 1) nan);
    [left; reflexivity | reflexivity].
Defined.

End NotANumber.

(** * The laws on the program as it runs

    The scaling law is a law of real numbers.  The program computes it on
    binary64 floats, where an int can be too large to convert, a quotient
    can underflow to zero or overflow to inf, and two neighbouring voltages
    can round to one value.  What follows states the laws for the program
    itself. *)

(** ** Signs of rounded results *)

Section Signs.

Import Binary64.






End Signs.

Section NotNegative.
Import Binary64.




End NotNegative.

(** ** The rounded formula *)

Section RoundedLaw.

Import Binary64.
















End RoundedLaw.

(** ** Whole volts *)

Section WholeVoltLaws.

Import Binary64.
Local Open Scope Z_scope.




















End WholeVoltLaws.
